(** * Named-export classifier and destructured-property remover

    A shallow embedding of
    [packages/gatsby/src/utils/babel/babel-module-export-utils.ts]:
    the five predicates that decide whether an [ExportNamedDeclaration]
    exports a given name, and the [ObjectPattern] callback of
    [RemoveNamedExportPropertiesVisitor].

    The syntax tree is the one of [@babel/types], restricted to the node
    kinds and fields the module reads.  JavaScript evaluation is modelled
    with a completion monad: reading a property of [null]/[undefined],
    iterating a non-iterable and [instanceof] with a right operand that is
    not an object raise a [TypeError]; optional chaining ([?.]) yields
    [undefined], modelled as [None].  The callback of the visitor works on
    the tree in place, so it is modelled with the tree it leaves beside
    its completion: an exception does not undo what was done before it. *)

From Stdlib Require Import String Bool Arith Lia.
From stdpp Require Import base option list.
From Equations Require Import Equations.

Local Open Scope string_scope.
Local Open Scope list_scope.

(** ** Syntax tree *)

Module AST.

Record Identifier := mkIdentifier { Identifier_name : string }.

(** The key of an object property, as written in the source text. *)
Inductive PropertyKey :=
| KeyIdentifier (i : Identifier)
| KeyStringLiteral (value : string)
| KeyComputed.

(** Binding targets: what a declarator's [id] or a pattern property's
    [value] can be. *)
#[local] Unset Elimination Schemes.
Inductive LVal :=
| IdentifierPattern (i : Identifier)
| ObjectPattern (properties : list PatternProperty)
| ArrayPattern (elements : list (option LVal))
| AssignmentPattern (target : LVal)
with PatternProperty :=
| ObjectProperty (key : PropertyKey) (value : LVal)
| RestElement (argument : LVal).
#[local] Set Elimination Schemes.

Record VariableDeclarator := mkDeclarator { VariableDeclarator_id : LVal }.

Inductive VariableKind := Var | Let | Const.

(** Declaration kinds other than functions and variables that can follow
    [export]. *)
Inductive OtherDeclarationKind :=
| ClassDeclaration
| TSDeclareFunction
| TSInterfaceDeclaration
| TSTypeAliasDeclaration
| TSEnumDeclaration
| TSModuleDeclaration.

Inductive Declaration :=
| FunctionDeclaration (async : bool) (id : option Identifier)
| VariableDeclaration (kind : VariableKind)
                      (declarations : list VariableDeclarator)
| OtherDeclaration (k : OtherDeclarationKind).

(** The exported name of [export { local as exported }]. *)
Inductive ModuleExportName :=
| ExportedIdentifier (i : Identifier)
| ExportedStringLiteral (value : string).

Inductive Specifier :=
| ExportSpecifier (local : Identifier) (exported : ModuleExportName)
| ExportDefaultSpecifier (exported : Identifier)
| ExportNamespaceSpecifier (exported : Identifier).

Record ExportNamedDeclaration := mkExport {
  declaration : option Declaration;
  specifiers : list Specifier
}.

End AST.
Import AST.

(** ** Node discriminants and field reads *)

(** Every node carries a [type] string. *)
Class Node (A : Type) := node_type : A -> string.

#[export] Instance LVal_Node : Node LVal := fun n =>
  match n with
  | IdentifierPattern _ => "Identifier"
  | ObjectPattern _ => "ObjectPattern"
  | ArrayPattern _ => "ArrayPattern"
  | AssignmentPattern _ => "AssignmentPattern"
  end.

#[export] Instance PatternProperty_Node : Node PatternProperty := fun n =>
  match n with
  | ObjectProperty _ _ => "ObjectProperty"
  | RestElement _ => "RestElement"
  end.

#[export] Instance VariableDeclarator_Node : Node VariableDeclarator :=
  fun _ => "VariableDeclarator".

#[export] Instance Declaration_Node : Node Declaration := fun n =>
  match n with
  | FunctionDeclaration _ _ => "FunctionDeclaration"
  | VariableDeclaration _ _ => "VariableDeclaration"
  | OtherDeclaration ClassDeclaration => "ClassDeclaration"
  | OtherDeclaration TSDeclareFunction => "TSDeclareFunction"
  | OtherDeclaration TSInterfaceDeclaration => "TSInterfaceDeclaration"
  | OtherDeclaration TSTypeAliasDeclaration => "TSTypeAliasDeclaration"
  | OtherDeclaration TSEnumDeclaration => "TSEnumDeclaration"
  | OtherDeclaration TSModuleDeclaration => "TSModuleDeclaration"
  end.

#[export] Instance ModuleExportName_Node : Node ModuleExportName := fun n =>
  match n with
  | ExportedIdentifier _ => "Identifier"
  | ExportedStringLiteral _ => "StringLiteral"
  end.

#[export] Instance Specifier_Node : Node Specifier := fun n =>
  match n with
  | ExportSpecifier _ _ => "ExportSpecifier"
  | ExportDefaultSpecifier _ => "ExportDefaultSpecifier"
  | ExportNamespaceSpecifier _ => "ExportNamespaceSpecifier"
  end.

(** Field reads.  A field the node kind does not have reads as
    [undefined], that is [None]. *)

Definition Declaration_id (d : Declaration) : option Identifier :=
  match d with
  | FunctionDeclaration _ id => id
  | _ => None
  end.

Definition Declaration_declarations (d : Declaration)
  : option (list VariableDeclarator) :=
  match d with
  | VariableDeclaration _ declarations => Some declarations
  | _ => None
  end.

Definition LVal_name (p : LVal) : option string :=
  match p with
  | IdentifierPattern i => Some (Identifier_name i)
  | _ => None
  end.

Definition LVal_properties (p : LVal) : option (list PatternProperty) :=
  match p with
  | ObjectPattern properties => Some properties
  | _ => None
  end.

Definition PatternProperty_value (p : PatternProperty) : option LVal :=
  match p with
  | ObjectProperty _ value => Some value
  | RestElement _ => None
  end.

Definition Specifier_exported (s : Specifier) : ModuleExportName :=
  match s with
  | ExportSpecifier _ exported => exported
  | ExportDefaultSpecifier exported => ExportedIdentifier exported
  | ExportNamespaceSpecifier exported => ExportedIdentifier exported
  end.

Definition ModuleExportName_name (e : ModuleExportName) : option string :=
  match e with
  | ExportedIdentifier i => Some (Identifier_name i)
  | ExportedStringLiteral _ => None
  end.

(** ** Completions *)

Inductive JsError := TypeError.

Inductive completion (A : Type) : Type :=
| Normal (a : A)
| Throw (e : JsError).
Arguments Normal {A} a.
Arguments Throw {A} e.

#[export] Instance completion_ret : MRet completion := @Normal.
#[export] Instance completion_bind : MBind completion := fun A B f c =>
  match c with
  | Normal a => f a
  | Throw e => Throw e
  end.

(** [o.f], [o[i].f] or [for (... of o)] where [o] may be [null] or
    [undefined]: a [TypeError] in that case. *)
Definition deref {A} (o : option A) : completion A :=
  match o with
  | Some a => Normal a
  | None => Throw TypeError
  end.

(** [o?.type === t] *)
Definition type_is {A} `{Node A} (o : option A) (t : string) : bool :=
  match o with
  | Some n => String.eqb (node_type n) t
  | None => false
  end.

(** [s === name], where [s] may be [undefined]. *)
Definition strict_eq (s : option string) (name : string) : bool :=
  match s with
  | Some s' => String.eqb s' name
  | None => false
  end.

(** [isIdentifier(n)] and [isExportSpecifier(n)] of [@babel/types]: false
    on [null]/[undefined], otherwise a test of the [type] field. *)
Definition isIdentifier {A} `{Node A} (n : option A) : bool :=
  type_is n "Identifier".

Definition isExportSpecifier {A} `{Node A} (n : option A) : bool :=
  type_is n "ExportSpecifier".

(** [a && b] and [a || b]: the right operand is evaluated only when the
    left one does not decide the result. *)
Definition and_then (a : completion bool) (b : completion bool)
  : completion bool :=
  a ≫= fun x : bool => if x then b else Normal false.

Definition or_else (a : completion bool) (b : completion bool)
  : completion bool :=
  a ≫= fun x : bool => if x then Normal true else b.

Infix "&&&" := and_then (at level 40, left associativity).
Infix "|||" := or_else (at level 50, left associativity).

(** ** Loops with early return *)

(** What a loop body does to the enclosing function: fall through to the
    next iteration, or [return b]. *)
Inductive control := Continue | Return (b : bool).

(** [for (const x of xs) body] *)
Fixpoint for_of {A} (xs : list A) (body : A -> completion control)
  : completion control :=
  match xs with
  | [] => Normal Continue
  | x :: rest =>
      body x ≫= fun c : control =>
      match c with
      | Continue => for_of rest body
      | Return b => Normal (Return b)
      end
  end.

(** [for (let i = 0; i < length; i++) body], for a body that leaves
    [length] unchanged. *)
Definition for_index (length : nat) (body : nat -> completion control)
  : completion control :=
  for_of (seq 0 length) body.

(** The value of a function whose loops are followed by [return dflt]. *)
Definition or_return (dflt : bool) (c : control) : completion bool :=
  match c with
  | Continue => Normal dflt
  | Return b => Normal b
  end.

(** [xs.some(f)] *)
Fixpoint Array_some {A} (xs : list A) (f : A -> completion bool)
  : completion bool :=
  match xs with
  | [] => Normal false
  | x :: rest => f x ||| Array_some rest f
  end.

(** [xs.includes(s)] on an array of strings. *)
Definition Array_includes (xs : list string) (s : string) : bool :=
  existsb (String.eqb s) xs.

(** ** The classifier *)

Definition isNamedExportFunction (node : ExportNamedDeclaration)
  (name : string) : completion bool :=
  Normal (type_is (declaration node) "FunctionDeclaration") &&&
  (d ← deref (declaration node);
   Normal (strict_eq (Identifier_name <$> Declaration_id d) name)).

Definition isNamedExportVariable (node : ExportNamedDeclaration)
  (name : string) : completion bool :=
  if negb (type_is (declaration node) "VariableDeclaration") then
    Normal false
  else
    declarations ← deref (declaration node ≫= Declaration_declarations);
    for_of declarations (fun declaration =>
      if negb (String.eqb (node_type declaration) "VariableDeclarator") then
        Normal (Return false)
      else if negb (String.eqb (node_type (VariableDeclarator_id declaration))
                               "Identifier") then
        Normal (Return false)
      else
        Normal (Return
          (strict_eq (LVal_name (VariableDeclarator_id declaration)) name)))
    ≫= or_return false.

Definition isNamedExportDestructuredVariable (node : ExportNamedDeclaration)
  (name : string) : completion bool :=
  if negb (type_is (declaration node) "VariableDeclaration") then
    Normal false
  else
    declarations ← deref (declaration node ≫= Declaration_declarations);
    for_of declarations (fun declaration =>
      if negb (String.eqb (node_type declaration) "VariableDeclarator") then
        Normal (Return false)
      else if negb (String.eqb (node_type (VariableDeclarator_id declaration))
                               "ObjectPattern") then
        Normal (Return false)
      else
        properties ← deref (LVal_properties (VariableDeclarator_id declaration));
        for_index (length properties) (fun i =>
          property ← deref (properties !! i);
          if negb (String.eqb (node_type property) "ObjectProperty")
             || negb (isIdentifier (PatternProperty_value property)) then
            Normal (Return false)
          else
            value ← deref (PatternProperty_value property);
            Normal (Return (strict_eq (LVal_name value) name))))
    ≫= or_return false.

Definition isNamedExportSpecifier (node : ExportNamedDeclaration)
  (name : string) : completion bool :=
  Array_some (specifiers node) (fun specifier =>
    Normal (isExportSpecifier (Some specifier)) &&&
    Normal (isIdentifier (Some (Specifier_exported specifier))) &&&
    Normal (strict_eq (ModuleExportName_name (Specifier_exported specifier))
                      name)).

Definition isNamedExport (node : ExportNamedDeclaration) (name : string)
  : completion bool :=
  isNamedExportFunction node name |||
  isNamedExportVariable node name |||
  isNamedExportDestructuredVariable node name |||
  isNamedExportSpecifier node name.

(** ** The remover *)

(** Modelled from the spec: the host traversal engine's path objects, which
    the module uses through [get] and [remove] only.  A path to a list
    child is addressed by its index in the parent's live list; [remove]
    detaches that node from the list, so later siblings move down by one
    position. *)
Record NodePath := mkPath { path_key : nat }.

(** The path of the visited [ObjectPattern]: the live property list of its
    node, and the nodes detached from it so far, oldest first. *)
Record ObjectPath := mkObjectPath {
  node_properties : list PatternProperty;
  removed : list PatternProperty
}.

(** [objectPath.get(`properties.${i}`)]: a path when the list has an entry
    at [i], [undefined] otherwise. *)
Definition ObjectPath_get (objectPath : ObjectPath) (i : nat)
  : option NodePath :=
  match node_properties objectPath !! i with
  | Some _ => Some (mkPath i)
  | None => None
  end.

(** [propertyPath.remove()]: the node at the path's index leaves the live
    list and is logged.  The callback only removes a path it has just
    obtained, so the index is always in range. *)
Definition NodePath_remove (propertyPath : NodePath) (objectPath : ObjectPath)
  : ObjectPath :=
  match node_properties objectPath !! path_key propertyPath with
  | Some n =>
      mkObjectPath (delete (path_key propertyPath) (node_properties objectPath))
                   (removed objectPath ++ [n])
  | None => objectPath
  end.

(** [xs.includes(s)] where [s] may be [undefined]. *)
Definition includes (xs : list string) (s : option string) : bool :=
  match s with
  | Some s' => Array_includes xs s'
  | None => false
  end.

(** The condition of the [if] in the loop body. *)
Definition is_removal_candidate (propertiesToRemove : list string)
  (property : PatternProperty) : completion bool :=
  Normal (String.eqb (node_type property) "ObjectProperty") &&&
  (value ← deref (PatternProperty_value property);
   Normal (String.eqb (node_type value) "Identifier")) &&&
  (value ← deref (PatternProperty_value property);
   Normal (includes propertiesToRemove (LVal_name value))).

(** A class as a run-time value. *)
Inductive Constructor := NodePathClass.

(** The run-time value of the binding [NodePath] that the module imports
    from [@babel/core] (line 6) and uses as the right operand of
    [instanceof] (line 159).  [@babel/core] makes the class of paths known
    as a type only and has no value export of that name, so the binding is
    [undefined] when the module runs. *)
Definition core_NodePath : option Constructor := None.

(** [v instanceof C].  A right operand that is not an object is a
    [TypeError], whatever the left operand is.  The paths [get] returns are
    instances of the path class; [undefined] is an instance of nothing. *)
Definition instanceof (v : option NodePath) (C : option Constructor)
  : completion bool :=
  match C with
  | None => Throw TypeError
  | Some NodePathClass =>
      Normal match v with Some _ => true | None => false end
  end.

(** The loop of the [ObjectPattern] callback,
    [for (let i = 0; i < objectPath.node.properties.length; i++)]: one
    forward sweep over the live list, the bound being read again on every
    iteration.  The result is the tree as the loop leaves it and the way
    the loop ends: normally, or with the exception that stopped it. *)
Equations? ObjectPattern_loop (propertiesToRemove : list string)
  (objectPath : ObjectPath) (i : nat) : ObjectPath * completion unit
  by wf (length (node_properties objectPath) - i) lt :=
  ObjectPattern_loop propertiesToRemove objectPath i
    with decide (i < length (node_properties objectPath)) := {
    | right _ := (objectPath, Normal tt);
    | left _
        with (deref (node_properties objectPath !! i)
                ≫= is_removal_candidate propertiesToRemove) := {
      | Throw e := (objectPath, Throw e);
      | Normal false :=
          ObjectPattern_loop propertiesToRemove objectPath (S i);
      | Normal true with ObjectPath_get objectPath i := {
        | propertyPath with instanceof propertyPath core_NodePath := {
          | Throw e := (objectPath, Throw e);
          | Normal false :=
              ObjectPattern_loop propertiesToRemove objectPath (S i);
          | Normal true with propertyPath := {
            | Some path :=
                ObjectPattern_loop propertiesToRemove
                  (NodePath_remove path objectPath) (S i);
            | None := (objectPath, Throw TypeError) } } } } }.
Proof.
  all: try lia.
  unfold NodePath_remove.
  destruct (node_properties objectPath !! path_key path) eqn:E;
    simpl; [|lia].
  rewrite length_delete by eauto. lia.
Qed.

(** The callback on a pattern whose node holds [properties]. *)
Definition RemoveNamedExportPropertiesVisitor_ObjectPattern
  (propertiesToRemove : list string) (properties : list PatternProperty)
  : ObjectPath * completion unit :=
  ObjectPattern_loop propertiesToRemove (mkObjectPath properties []) 0.

(** ** Vocabulary of the statements *)

(** A pattern property binds a local name that is in the removal set. *)
Definition binds_removed_name (propertiesToRemove : list string)
  (property : PatternProperty) : bool :=
  match property with
  | ObjectProperty _ (IdentifierPattern i) =>
      Array_includes propertiesToRemove (Identifier_name i)
  | _ => false
  end.

(** The declarators the destructured-variable loops walk through: each
    declarator with an empty object pattern is passed over, and the first
    other declarator decides. *)
Fixpoint destructured_scan (declarations : list VariableDeclarator)
  (name : string) : bool :=
  match declarations with
  | [] => false
  | mkDeclarator (ObjectPattern []) :: rest => destructured_scan rest name
  | mkDeclarator
      (ObjectPattern (ObjectProperty _ (IdentifierPattern i) :: _)) :: _ =>
      String.eqb (Identifier_name i) name
  | _ => false
  end.

(** A specifier is an [ExportSpecifier] whose exported name is the
    identifier [name]. *)
Definition exports_identifier (name : string) (s : Specifier) : bool :=
  match s with
  | ExportSpecifier _ (ExportedIdentifier i) =>
      String.eqb (Identifier_name i) name
  | _ => false
  end.

(** The first declarator binds an object pattern whose first property
    binds the local identifier [name]. *)
Definition first_declarator_first_property (node : ExportNamedDeclaration)
  (name : string) : Prop :=
  exists kind key props rest,
    declaration node =
    Some (VariableDeclaration kind
            (mkDeclarator
               (ObjectPattern
                  (ObjectProperty key (IdentifierPattern (mkIdentifier name))
                     :: props))
             :: rest)).

(** The [exported] field of a specifier is an identifier called [name]. *)
Definition has_exported_identifier_name (s : Specifier) (name : string)
  : Prop :=
  ModuleExportName_name (Specifier_exported s) = Some name.

(** The local names an object pattern binds through plain identifiers. *)
Definition bound_local_names (properties : list PatternProperty)
  : list string :=
  omap (fun p => PatternProperty_value p ≫= LVal_name) properties.

(** Two visits of the same pattern with the same removal set, each a
    traversal of its own: the second one works on the tree the first one
    left, also when the first one ended with an exception.  The result is
    the tree after the second visit, with the nodes the second visit
    detached, and the way the second visit ended. *)
Definition ObjectPattern_twice (propertiesToRemove : list string)
  (properties : list PatternProperty) : ObjectPath * completion unit :=
  RemoveNamedExportPropertiesVisitor_ObjectPattern propertiesToRemove
    (node_properties
       (fst (RemoveNamedExportPropertiesVisitor_ObjectPattern
               propertiesToRemove properties))).

(** A predicate of the classifier returns a boolean on every input. *)
Definition never_throws
  (f : ExportNamedDeclaration -> string -> completion bool) : Prop :=
  forall node name, exists b, f node name = Normal b.

(** One of the three predicates on the inner declaration answers [true]. *)
Definition declaration_exports (node : ExportNamedDeclaration)
  (name : string) : Prop :=
  isNamedExportFunction node name = Normal true
  \/ isNamedExportVariable node name = Normal true
  \/ isNamedExportDestructuredVariable node name = Normal true.

(** ** Sample trees *)

Definition ident (s : string) : LVal := IdentifierPattern (mkIdentifier s).

(** [{ s }] and [{ k: v }] entries of an object pattern. *)
Definition shorthand (s : string) : PatternProperty :=
  ObjectProperty (KeyIdentifier (mkIdentifier s)) (ident s).
Definition renamed (k v : string) : PatternProperty :=
  ObjectProperty (KeyIdentifier (mkIdentifier k)) (ident v).

Definition export_variables (kind : VariableKind) (ids : list LVal)
  : ExportNamedDeclaration :=
  mkExport (Some (VariableDeclaration kind (mkDeclarator <$> ids))) [].

(** [export function f() {}] *)
Definition export_function_f : ExportNamedDeclaration :=
  mkExport (Some (FunctionDeclaration false (Some (mkIdentifier "f")))) [].

(** [export let a, b] *)
Definition export_let_a_b : ExportNamedDeclaration :=
  export_variables Let [ident "a"; ident "b"].

(** [export const { a, b: c } = obj] *)
Definition export_const_a_b_c : ExportNamedDeclaration :=
  export_variables Const [ObjectPattern [shorthand "a"; renamed "b" "c"]].

(** [export const {} = x, { a } = y] *)
Definition export_const_empty_then_a : ExportNamedDeclaration :=
  export_variables Const [ObjectPattern []; ObjectPattern [shorthand "a"]].

(** [export const { x } = o, b = 1] *)
Definition export_const_pattern_then_b : ExportNamedDeclaration :=
  export_variables Const [ObjectPattern [shorthand "x"]; ident "b"].

(** [export { x, y as z }] *)
Definition export_x_y_as_z : ExportNamedDeclaration :=
  mkExport None
    [ExportSpecifier (mkIdentifier "x") (ExportedIdentifier (mkIdentifier "x"));
     ExportSpecifier (mkIdentifier "y") (ExportedIdentifier (mkIdentifier "z"))].

(** [{ foo, bar: baz }], the pattern of [export const { foo, bar: baz } = {}] *)
Definition pattern_foo_bar_baz : list PatternProperty :=
  [shorthand "foo"; renamed "bar" "baz"].

(** [{ a, b, c }], the pattern of [export const { a, b, c } = obj] *)
Definition pattern_a_b_c : list PatternProperty :=
  [shorthand "a"; shorthand "b"; shorthand "c"].

(** [{ a: { x }, b: [y], ...c }] *)
Definition pattern_nested : list PatternProperty :=
  [ObjectProperty (KeyIdentifier (mkIdentifier "a"))
     (ObjectPattern [shorthand "x"]);
   ObjectProperty (KeyIdentifier (mkIdentifier "b"))
     (ArrayPattern [Some (ident "y")]);
   RestElement (ident "c")].

(** [export * as z from "m"] *)
Definition export_star_as_z : ExportNamedDeclaration :=
  mkExport None [ExportNamespaceSpecifier (mkIdentifier "z")].

(** * Properties *)

(** ** Evaluation lemmas *)

Lemma isNamedExportFunction_eval node name :
  isNamedExportFunction node name =
  Normal match declaration node with
         | Some (FunctionDeclaration _ (Some i)) =>
             String.eqb (Identifier_name i) name
         | _ => false
         end.
Proof.
  destruct node as [[[a [i|]|k ds|[]]|] sp]; reflexivity.
Qed.

Lemma isNamedExportVariable_eval node name :
  isNamedExportVariable node name =
  Normal match declaration node with
         | Some (VariableDeclaration _
                   (mkDeclarator (IdentifierPattern i) :: _)) =>
             String.eqb (Identifier_name i) name
         | _ => false
         end.
Proof.
  destruct node as [[[a i|k [|[[]] ds]|[]]|] sp]; reflexivity.
Qed.

Lemma destructured_loop_eval (declarations : list VariableDeclarator) name :
  for_of declarations (fun declaration =>
    if negb (String.eqb (node_type declaration) "VariableDeclarator") then
      Normal (Return false)
    else if negb (String.eqb (node_type (VariableDeclarator_id declaration))
                             "ObjectPattern") then
      Normal (Return false)
    else
      properties ← deref (LVal_properties (VariableDeclarator_id declaration));
      for_index (length properties) (fun i =>
        property ← deref (properties !! i);
        if negb (String.eqb (node_type property) "ObjectProperty")
           || negb (isIdentifier (PatternProperty_value property)) then
          Normal (Return false)
        else
          value ← deref (PatternProperty_value property);
          Normal (Return (strict_eq (LVal_name value) name))))
  ≫= or_return false
  = Normal (destructured_scan declarations name).
Proof.
  induction declarations as [|[[i|[|[key [j|ps|es|t]|arg] props]|es|t]] ds IH];
    try reflexivity.
  exact IH.
Qed.

Lemma isNamedExportDestructuredVariable_eval node name :
  isNamedExportDestructuredVariable node name =
  Normal match declaration node with
         | Some (VariableDeclaration _ declarations) =>
             destructured_scan declarations name
         | _ => false
         end.
Proof.
  destruct node as [[[a i|k ds|[]]|] sp]; try reflexivity.
  apply destructured_loop_eval.
Qed.

Lemma Array_some_pure {A} (xs : list A) (f : A -> completion bool)
  (g : A -> bool) :
  (forall x, f x = Normal (g x)) ->
  Array_some xs f = Normal (existsb g xs).
Proof.
  intros Hf. induction xs as [|x xs IH]; simpl; [reflexivity|].
  rewrite Hf, IH. destruct (g x); reflexivity.
Qed.

Lemma isNamedExportSpecifier_eval node name :
  isNamedExportSpecifier node name =
  Normal (existsb (exports_identifier name) (specifiers node)).
Proof.
  apply Array_some_pure. intros [l [i|v]|e|e]; reflexivity.
Qed.

Lemma String_eqb_true (a b : string) : String.eqb a b = true <-> a = b.
Proof. apply String.eqb_eq. Qed.

Lemma completion_true_false (c : completion bool) (b : bool) :
  c = Normal b -> c = Normal true <-> b = true.
Proof. intros ->. split; [intros [= ->]|intros ->]; reflexivity. Qed.

Lemma Identifier_eta i name :
  Identifier_name i = name <-> i = mkIdentifier name.
Proof. destruct i; simpl. split; [intros ->|intros [= ->]]; reflexivity. Qed.

(** ** Function form *)

(** C6: [isNamedExportFunction] is true exactly when the inner declaration
    is a function declaration whose [id] is the target name; a function
    declaration without [id] matches no name. *)
Theorem isNamedExportFunction_iff node name :
  (isNamedExportFunction node name = Normal true <->
   exists async,
     declaration node =
     Some (FunctionDeclaration async (Some (mkIdentifier name))))
  /\ (forall async sp,
        isNamedExportFunction
          (mkExport (Some (FunctionDeclaration async None)) sp) name
        = Normal false)
  /\ isNamedExportFunction export_function_f "f" = Normal true.
Proof.
  split; [|split; reflexivity].
  rewrite (completion_true_false _ _ (isNamedExportFunction_eval node name)).
  destruct (declaration node) as [[a [i|]|k ds|o]|].
  - rewrite String_eqb_true, Identifier_eta. split.
    + intros ->. eauto.
    + intros [a' [= _ ->]]. reflexivity.
  - split; [discriminate|intros [? [=]]].
  - split; [discriminate|intros [? [=]]].
  - split; [discriminate|intros [? [=]]].
  - split; [discriminate|intros [? [=]]].
Qed.

(** ** Simple-variable form *)

(** C3: [isNamedExportVariable] is true exactly when the inner declaration
    is a variable declaration whose first declarator binds the plain
    identifier [name].  A first declarator that binds anything else gives
    [false] whatever the later declarators are; [export let a, b] does not
    match [b]. *)
Theorem isNamedExportVariable_first_declarator node name :
  (isNamedExportVariable node name = Normal true <->
   exists kind rest,
     declaration node =
     Some (VariableDeclaration kind
             (mkDeclarator (IdentifierPattern (mkIdentifier name)) :: rest)))
  /\ (forall kind first rest sp,
        (forall i, VariableDeclarator_id first <> IdentifierPattern i) ->
        isNamedExportVariable
          (mkExport (Some (VariableDeclaration kind (first :: rest))) sp) name
        = Normal false)
  /\ isNamedExportVariable export_let_a_b "a" = Normal true
  /\ isNamedExportVariable export_let_a_b "b" = Normal false
  /\ isNamedExportVariable export_const_pattern_then_b "b" = Normal false.
Proof.
  split; [|split; [|repeat split; reflexivity]].
  - rewrite (completion_true_false _ _ (isNamedExportVariable_eval node name)).
    destruct (declaration node) as [[a i|k [|[[i|ps|es|t]] ds]|o]|];
      try (split; [discriminate|intros (? & ? & [=])]).
    rewrite String_eqb_true, Identifier_eta. split.
    + intros ->. eauto.
    + intros (k' & ds' & [= _ -> _]). reflexivity.
  - intros kind [[i|ps|es|t]] rest sp Hne; try reflexivity.
    destruct (Hne i). reflexivity.
Qed.

(** ** Destructured-variable form *)

Lemma destructured_scan_true declarations name :
  destructured_scan declarations name = true <->
  exists empties key props rest,
    declarations =
    (empties ++
     mkDeclarator
       (ObjectPattern
          (ObjectProperty key (IdentifierPattern (mkIdentifier name))
             :: props))
     :: rest)%list
    /\ Forall (fun d => VariableDeclarator_id d = ObjectPattern []) empties.
Proof.
  induction declarations
    as [|[[i|[|[key [j|ps|es|t]|arg] props]|es|t]] ds IH]; simpl.
  all: try (split; [discriminate|]).
  all: try (intros ([|e empties] & key' & props' & rest & Heq & Hall);
            [discriminate Heq|
             injection Heq as <- _; inversion Hall as [|? ? Hd _];
             discriminate Hd]).
  - intros ([|e empties] & ? & ? & ? & Heq & _); discriminate Heq.
  - rewrite IH. split.
    + intros (empties & key & props & rest & -> & Hall).
      exists (mkDeclarator (ObjectPattern []) :: empties), key, props, rest.
      split; [reflexivity|]. constructor; [reflexivity|assumption].
    + intros ([|e empties] & key & props & rest & Heq & Hall);
        [discriminate Heq|].
      injection Heq as _ ->. inversion Hall; subst.
      exists empties, key, props, rest. split; [reflexivity|assumption].
  - rewrite String_eqb_true, Identifier_eta. split.
    + intros ->. exists [], key, props, ds. split; [reflexivity|constructor].
    + intros ([|e empties] & key' & props' & rest & Heq & Hall).
      * injection Heq as _ -> _ _. reflexivity.
      * injection Heq as <- _. inversion Hall as [|? ? Hd _]. discriminate Hd.
Qed.

(** C4 as stated does not hold: for [export const {} = x, { a } = y] the
    predicate answers [true] on [a], although the first declarator's
    pattern has no first property at all. *)
Lemma isNamedExportDestructuredVariable_not_first_declarator_only :
  ~ (isNamedExportDestructuredVariable export_const_empty_then_a "a"
     = Normal true <->
     first_declarator_first_property export_const_empty_then_a "a").
Proof.
  intros [Hfwd _].
  destruct (Hfwd eq_refl) as (kind & key & props & rest & Heq).
  discriminate Heq.
Qed.

(** C4, amended: [isNamedExportDestructuredVariable] is true exactly when
    the inner declaration is a variable declaration whose declarators
    start with zero or more empty object patterns followed by a declarator
    whose object pattern has, as its first property, an [ObjectProperty]
    whose value is the plain identifier [name].  Within that pattern only
    the first property counts; a first property whose value is not a plain
    identifier gives [false].  For [export const { a, b: c } = obj], [a]
    matches and [c] does not. *)
Theorem isNamedExportDestructuredVariable_iff node name :
  (isNamedExportDestructuredVariable node name = Normal true <->
   exists kind empties key props rest,
     declaration node =
     Some (VariableDeclaration kind
             (empties ++
              mkDeclarator
                (ObjectPattern
                   (ObjectProperty key (IdentifierPattern (mkIdentifier name))
                      :: props))
              :: rest)%list)
     /\ Forall (fun d => VariableDeclarator_id d = ObjectPattern []) empties)
  /\ (forall kind key value props rest sp,
        (forall i, value <> IdentifierPattern i) ->
        isNamedExportDestructuredVariable
          (mkExport
             (Some (VariableDeclaration kind
                      (mkDeclarator (ObjectPattern
                                       (ObjectProperty key value :: props))
                       :: rest))) sp) name
        = Normal false)
  /\ (forall kind key i props rest sp,
        isNamedExportDestructuredVariable
          (mkExport
             (Some (VariableDeclaration kind
                      (mkDeclarator
                         (ObjectPattern
                            (ObjectProperty key (IdentifierPattern i)
                               :: props))
                       :: rest))) sp) name
        = Normal (String.eqb (Identifier_name i) name))
  /\ isNamedExportDestructuredVariable export_const_a_b_c "a" = Normal true
  /\ isNamedExportDestructuredVariable export_const_a_b_c "c" = Normal false.
Proof.
  split; [|split; [|repeat split; reflexivity]].
  - rewrite (completion_true_false _ _
               (isNamedExportDestructuredVariable_eval node name)).
    destruct (declaration node) as [[a i|k ds|o]|];
      try (split; [discriminate|intros (? & ? & ? & ? & ? & [=] & _)]).
    rewrite destructured_scan_true. split.
    + intros (empties & key & props & rest & -> & Hall).
      exists k, empties, key, props, rest. split; [reflexivity|assumption].
    + intros (k' & empties & key & props & rest & [= _ ->] & Hall).
      exists empties, key, props, rest. split; [reflexivity|assumption].
  - intros kind key [i|ps|es|t] props rest sp Hne; try reflexivity.
    destruct (Hne i). reflexivity.
Qed.

(** ** Specifier-list form *)

Lemma exports_identifier_true name s :
  exports_identifier name s = true <->
  exists local, s = ExportSpecifier local (ExportedIdentifier (mkIdentifier name)).
Proof.
  destruct s as [l [i|v]|e|e]; simpl;
    try (split; [discriminate|intros [? [=]]]).
  rewrite String_eqb_true, Identifier_eta. split.
  - intros ->. eauto.
  - intros [l' [= _ ->]]. reflexivity.
Qed.

Lemma isNamedExportSpecifier_true node name :
  isNamedExportSpecifier node name = Normal true <->
  exists local,
    ExportSpecifier local (ExportedIdentifier (mkIdentifier name))
    ∈ specifiers node.
Proof.
  rewrite (completion_true_false _ _ (isNamedExportSpecifier_eval node name)).
  rewrite existsb_exists. split.
  - intros (s & Hin & Hs). apply exports_identifier_true in Hs as [l ->].
    exists l. apply list_elem_of_In, Hin.
  - intros [l Hin]. eexists. split; [apply list_elem_of_In, Hin|].
    apply exports_identifier_true. eauto.
Qed.

(** C5 as stated does not hold: in [export * as z from "m"] an entry of the
    specifier list has the exported identifier [z], yet the predicate
    answers [false] on [z]. *)
Lemma isNamedExportSpecifier_not_any_exported_identifier :
  ~ (isNamedExportSpecifier export_star_as_z "z" = Normal true <->
     exists s, s ∈ specifiers export_star_as_z
               /\ has_exported_identifier_name s "z").
Proof.
  intros [_ Hbwd]. enough (H : isNamedExportSpecifier export_star_as_z "z"
                               = Normal true) by discriminate H.
  apply Hbwd. eexists. split; [apply elem_of_cons; left; reflexivity|reflexivity].
Qed.

(** C5, amended: [isNamedExportSpecifier] is true exactly when some entry
    of the specifier list, at any position, is an [ExportSpecifier] whose
    exported name is the identifier [name]; the local name is never
    compared.  For [export { x, y as z }], [x] and [z] match and [y] does
    not. *)
Theorem isNamedExportSpecifier_iff node name :
  (isNamedExportSpecifier node name = Normal true <->
   exists local,
     ExportSpecifier local (ExportedIdentifier (mkIdentifier name))
     ∈ specifiers node)
  /\ (forall d before after local exported,
        isNamedExportSpecifier
          (mkExport d
             (before ++
              ExportSpecifier local (ExportedIdentifier exported) :: after))
          (Identifier_name exported)
        = Normal true)
  /\ isNamedExportSpecifier export_x_y_as_z "x" = Normal true
  /\ isNamedExportSpecifier export_x_y_as_z "z" = Normal true
  /\ isNamedExportSpecifier export_x_y_as_z "y" = Normal false.
Proof.
  split; [apply isNamedExportSpecifier_true|].
  split; [|repeat split; reflexivity].
  intros d before after local [exported]. apply isNamedExportSpecifier_true.
  exists local. simpl. apply elem_of_app. right. apply elem_of_cons. left. reflexivity.
Qed.

(** C10: an entry of the specifier list that is not an [ExportSpecifier]
    has no influence on [isNamedExportSpecifier], whatever its exported
    name: the answer is the one for the list without that entry.  When the
    answer is [true], an [ExportSpecifier] with the identifier [name] as
    exported name is in the list. *)
Theorem isNamedExportSpecifier_ignores_other_kinds
  (d : option Declaration) (before after : list Specifier) (s : Specifier)
  (name : string) (Hkind : isExportSpecifier (Some s) = false) :
  isNamedExportSpecifier (mkExport d (before ++ s :: after)) name
  = isNamedExportSpecifier (mkExport d (before ++ after)) name
  /\ isNamedExportSpecifier (mkExport d [s]) name = Normal false
  /\ (isNamedExportSpecifier (mkExport d (before ++ s :: after)) name
      = Normal true ->
      exists local,
        ExportSpecifier local (ExportedIdentifier (mkIdentifier name))
        ∈ (before ++ after)%list).
Proof.
  assert (Hs : exports_identifier name s = false).
  { destruct s as [l e|e|e]; [discriminate Hkind|reflexivity..]. }
  assert (Heq : isNamedExportSpecifier (mkExport d (before ++ s :: after)) name
                = isNamedExportSpecifier (mkExport d (before ++ after)) name).
  { rewrite !isNamedExportSpecifier_eval. simpl.
    rewrite !existsb_app. simpl. rewrite Hs. reflexivity. }
  split; [exact Heq|]. split.
  - rewrite isNamedExportSpecifier_eval. simpl. rewrite Hs. reflexivity.
  - rewrite Heq. intros H. apply isNamedExportSpecifier_true in H. exact H.
Qed.

(** The namespace specifier of [export * as z from "m"] is such an entry. *)
Lemma isNamedExportSpecifier_ignores_namespace :
  isExportSpecifier (Some (ExportNamespaceSpecifier (mkIdentifier "z")))
  = false
  /\ isNamedExportSpecifier export_star_as_z "z" = Normal false.
Proof.
  split; [reflexivity|].
  apply (isNamedExportSpecifier_ignores_other_kinds
           None [] [] (ExportNamespaceSpecifier (mkIdentifier "z")) "z").
  reflexivity.
Defined.

(** ** Combinator *)

Lemma or_else_pure (a b : bool) : Normal a ||| Normal b = Normal (a || b).
Proof. destruct a; reflexivity. Qed.

Lemma isNamedExport_eval node name :
  isNamedExport node name =
  Normal (match declaration node with
          | Some (FunctionDeclaration _ (Some i)) =>
              String.eqb (Identifier_name i) name
          | _ => false
          end
          || match declaration node with
             | Some (VariableDeclaration _
                       (mkDeclarator (IdentifierPattern i) :: _)) =>
                 String.eqb (Identifier_name i) name
             | _ => false
             end
          || match declaration node with
             | Some (VariableDeclaration _ declarations) =>
                 destructured_scan declarations name
             | _ => false
             end
          || existsb (exports_identifier name) (specifiers node)).
Proof.
  unfold isNamedExport.
  rewrite isNamedExportFunction_eval, isNamedExportVariable_eval,
    isNamedExportDestructuredVariable_eval, isNamedExportSpecifier_eval.
  rewrite !or_else_pure. reflexivity.
Qed.

(** C1: [isNamedExport] is the disjunction of the four elementary
    predicates, taken in the order function, simple variable, destructured
    variable, specifier list, each operand being evaluated only when the
    ones before it are false. *)
Theorem isNamedExport_is_or node name :
  (exists b1 b2 b3 b4,
     isNamedExportFunction node name = Normal b1
     /\ isNamedExportVariable node name = Normal b2
     /\ isNamedExportDestructuredVariable node name = Normal b3
     /\ isNamedExportSpecifier node name = Normal b4
     /\ isNamedExport node name = Normal (b1 || b2 || b3 || b4))
  /\ (isNamedExport node name = Normal true <->
      isNamedExportFunction node name = Normal true
      \/ isNamedExportVariable node name = Normal true
      \/ isNamedExportDestructuredVariable node name = Normal true
      \/ isNamedExportSpecifier node name = Normal true)
  /\ isNamedExport node name
     = (isNamedExportFunction node name |||
        isNamedExportVariable node name |||
        isNamedExportDestructuredVariable node name |||
        isNamedExportSpecifier node name)
  /\ (forall later, Normal true ||| later = Normal true)
  /\ (forall later, Normal false ||| later = later).
Proof.
  unfold isNamedExport.
  rewrite isNamedExportFunction_eval, isNamedExportVariable_eval,
    isNamedExportDestructuredVariable_eval, isNamedExportSpecifier_eval.
  set (b1 := match declaration node with
             | Some (FunctionDeclaration _ (Some i)) => _ | _ => false end).
  set (b2 := match declaration node with
             | Some (VariableDeclaration _ (_ :: _)) => _ | _ => false end).
  set (b3 := match declaration node with
             | Some (VariableDeclaration _ ds) => destructured_scan ds name
             | _ => false end).
  set (b4 := existsb _ _).
  assert (Hor : Normal b1 ||| Normal b2 ||| Normal b3 ||| Normal b4
                = Normal (b1 || b2 || b3 || b4)).
  { destruct b1, b2, b3, b4; reflexivity. }
  split; [exists b1, b2, b3, b4; auto|].
  split; [|split; [reflexivity|split; reflexivity]].
  rewrite Hor. destruct b1, b2, b3, b4; simpl; split; auto;
    intros [H|[H|[H|H]]]; discriminate H.
Qed.

(** ** Totality *)

(** C7: each of the five predicates returns a boolean on every tree, and
    returns [false] when the inner declaration is missing, is of another
    kind, or when the declarator, property or specifier list is empty. *)
Theorem classifier_never_throws :
  (never_throws isNamedExportFunction
   /\ never_throws isNamedExportVariable
   /\ never_throws isNamedExportDestructuredVariable
   /\ never_throws isNamedExportSpecifier
   /\ never_throws isNamedExport)
  /\ (forall sp name,
        isNamedExportFunction (mkExport None sp) name = Normal false
        /\ isNamedExportVariable (mkExport None sp) name = Normal false
        /\ isNamedExportDestructuredVariable (mkExport None sp) name
           = Normal false)
  /\ (forall k sp name,
        let node := mkExport (Some (OtherDeclaration k)) sp in
        isNamedExportFunction node name = Normal false
        /\ isNamedExportVariable node name = Normal false
        /\ isNamedExportDestructuredVariable node name = Normal false)
  /\ (forall async id sp name,
        let node := mkExport (Some (FunctionDeclaration async id)) sp in
        isNamedExportVariable node name = Normal false
        /\ isNamedExportDestructuredVariable node name = Normal false)
  /\ (forall kind ds sp name,
        isNamedExportFunction
          (mkExport (Some (VariableDeclaration kind ds)) sp) name
        = Normal false)
  /\ (forall kind sp name,
        let node := mkExport (Some (VariableDeclaration kind [])) sp in
        isNamedExportVariable node name = Normal false
        /\ isNamedExportDestructuredVariable node name = Normal false)
  /\ (forall kind sp name,
        isNamedExportDestructuredVariable
          (mkExport (Some (VariableDeclaration kind
                             [mkDeclarator (ObjectPattern [])])) sp) name
        = Normal false)
  /\ (forall kind arg props rest sp name,
        isNamedExportDestructuredVariable
          (mkExport (Some (VariableDeclaration kind
                             (mkDeclarator
                                (ObjectPattern (RestElement arg :: props))
                              :: rest))) sp) name
        = Normal false)
  /\ (forall d name, isNamedExportSpecifier (mkExport d []) name = Normal false)
  /\ (forall name, isNamedExport (mkExport None []) name = Normal false).
Proof.
  split.
  { repeat split; intros node name.
    - rewrite isNamedExportFunction_eval. eauto.
    - rewrite isNamedExportVariable_eval. eauto.
    - rewrite isNamedExportDestructuredVariable_eval. eauto.
    - rewrite isNamedExportSpecifier_eval. eauto.
    - rewrite isNamedExport_eval. eauto. }
  repeat split; try reflexivity.
  all: destruct k; reflexivity.
Qed.

(** ** The remover: what one visit does *)

Section Visit.

(** The visitor state [this.propertiesToRemove], fixed during a visit. *)
Variable rm : list string.

Lemma is_removal_candidate_eval p :
  is_removal_candidate rm p = Normal (binds_removed_name rm p).
Proof. destruct p as [key [i|ps|es|t]|arg]; reflexivity. Qed.

Lemma ObjectPattern_loop_done objectPath i :
  length (node_properties objectPath) <= i ->
  ObjectPattern_loop rm objectPath i = (objectPath, Normal tt).
Proof.
  intros Hle. rewrite ObjectPattern_loop_equation_1.
  destruct (decide (i < length (node_properties objectPath))); [lia|].
  reflexivity.
Qed.

Lemma ObjectPattern_loop_keep objectPath i p :
  node_properties objectPath !! i = Some p ->
  binds_removed_name rm p = false ->
  ObjectPattern_loop rm objectPath i
  = ObjectPattern_loop rm objectPath (S i).
Proof.
  intros Hp Hb. rewrite ObjectPattern_loop_equation_1.
  destruct (decide (i < length (node_properties objectPath))) as [Hlt|Hge].
  - simpl. rewrite Hp. simpl.
    change (mbind _ (Normal p)) with (is_removal_candidate rm p).
    rewrite is_removal_candidate_eval, Hb. reflexivity.
  - apply lookup_lt_Some in Hp. lia.
Qed.

Lemma ObjectPattern_loop_throw objectPath i p :
  node_properties objectPath !! i = Some p ->
  binds_removed_name rm p = true ->
  ObjectPattern_loop rm objectPath i = (objectPath, Throw TypeError).
Proof.
  intros Hp Hb. rewrite ObjectPattern_loop_equation_1.
  destruct (decide (i < length (node_properties objectPath))) as [Hlt|Hge].
  - simpl. rewrite Hp. simpl.
    change (mbind _ (Normal p)) with (is_removal_candidate rm p).
    rewrite is_removal_candidate_eval, Hb. reflexivity.
  - apply lookup_lt_Some in Hp. lia.
Qed.

Lemma ObjectPattern_loop_eval suf :
  forall pre gone,
    ObjectPattern_loop rm (mkObjectPath (pre ++ suf) gone) (length pre)
    = (mkObjectPath (pre ++ suf) gone,
       if existsb (binds_removed_name rm) suf then Throw TypeError
       else Normal tt).
Proof.
  induction suf as [|p rest IH]; intros pre gone.
  - apply ObjectPattern_loop_done. simpl. rewrite length_app. simpl. lia.
  - assert (Hp : (pre ++ p :: rest) !! length pre = Some p)
      by apply list_lookup_middle, eq_refl.
    simpl. destruct (binds_removed_name rm p) eqn:Hb.
    + apply (ObjectPattern_loop_throw _ _ p); assumption.
    + rewrite (ObjectPattern_loop_keep _ _ p) by assumption. simpl.
      replace (S (length pre)) with (length (pre ++ [p]))
        by (rewrite length_app; simpl; lia).
      rewrite (cons_middle p pre rest), app_assoc. apply IH.
Qed.

Lemma ObjectPattern_eval properties :
  RemoveNamedExportPropertiesVisitor_ObjectPattern rm properties
  = (mkObjectPath properties [],
     if existsb (binds_removed_name rm) properties then Throw TypeError
     else Normal tt).
Proof. apply (ObjectPattern_loop_eval properties [] []). Qed.

Lemma Array_includes_true n : Array_includes rm n = true <-> n ∈ rm.
Proof.
  unfold Array_includes. rewrite existsb_exists, list_elem_of_In. split.
  - intros (x & Hin & Heq). apply String.eqb_eq in Heq. subst. exact Hin.
  - intros Hin. exists n. split; [exact Hin|apply String.eqb_refl].
Qed.

Lemma binds_removed_name_true p :
  binds_removed_name rm p = true <->
  exists key i, p = ObjectProperty key (IdentifierPattern i)
                /\ Identifier_name i ∈ rm.
Proof.
  destruct p as [key [i|ps|es|t]|arg]; simpl;
    try (split; [discriminate|intros (? & ? & [=] & _)]).
  rewrite Array_includes_true. split.
  - intros Hin. eauto.
  - intros (key' & i' & [= _ ->] & Hin). exact Hin.
Qed.

Lemma no_candidate_iff l :
  existsb (binds_removed_name rm) l = false <->
  Forall (fun p => binds_removed_name rm p = false) l.
Proof.
  induction l as [|p l IH]; simpl.
  - split; auto.
  - rewrite orb_false_iff, IH. split.
    + intros [Hp Hl]. constructor; assumption.
    + inversion 1; auto.
Qed.

Lemma some_candidate_iff l :
  existsb (binds_removed_name rm) l = true <->
  exists key i, ObjectProperty key (IdentifierPattern i) ∈ l
                /\ Identifier_name i ∈ rm.
Proof.
  rewrite existsb_exists. split.
  - intros (p & Hin & Hb).
    apply binds_removed_name_true in Hb as (key & i & -> & Hrm).
    exists key, i. split; [apply list_elem_of_In, Hin|exact Hrm].
  - intros (key & i & Hin & Hrm). eexists.
    split; [apply list_elem_of_In, Hin|].
    apply binds_removed_name_true. eauto.
Qed.

Lemma disjoint_no_candidate l :
  (forall n, n ∈ bound_local_names l -> n ∉ rm) ->
  existsb (binds_removed_name rm) l = false.
Proof.
  intros Hdisj. destruct (existsb (binds_removed_name rm) l) eqn:E;
    [|reflexivity].
  apply some_candidate_iff in E as (key & i & Hin & Hrm).
  destruct (Hdisj (Identifier_name i)); [|exact Hrm].
  apply list_elem_of_omap. eexists. split; [exact Hin|reflexivity].
Qed.

End Visit.

(** ** The remover: frame *)

(** C9: the nodes a visit detaches are all [ObjectProperty] entries whose
    value is a plain identifier named in the removal set.  What it leaves
    is a sub-list of the pattern in the original order, and together with
    the detached nodes it makes up the pattern; a property whose value is
    not a plain identifier stays even when its key is in the removal set;
    and when no bound local name is in the removal set the visit ends
    normally, the pattern is as it was and nothing is detached. *)
Theorem Remover_deletes_only_candidates rm properties :
  exists kept deleted ending,
    RemoveNamedExportPropertiesVisitor_ObjectPattern rm properties
    = (mkObjectPath kept deleted, ending)
    /\ Forall (fun p => exists key i,
                 p = ObjectProperty key (IdentifierPattern i)
                 /\ Identifier_name i ∈ rm) deleted
    /\ kept `sublist_of` properties
    /\ properties ≡ₚ kept ++ deleted
    /\ (forall key value,
          ObjectProperty key value ∈ properties ->
          (forall i, value <> IdentifierPattern i) ->
          ObjectProperty key value ∈ kept
          /\ ObjectProperty key value ∉ deleted)
    /\ ((forall n, n ∈ bound_local_names properties -> n ∉ rm) ->
        kept = properties /\ deleted = [] /\ ending = Normal tt)
    /\ RemoveNamedExportPropertiesVisitor_ObjectPattern ["a"; "b"; "c"]
         pattern_nested
       = (mkObjectPath pattern_nested [], Normal tt).
Proof.
  eexists properties, [], _. split; [apply ObjectPattern_eval|].
  split; [constructor|]. split; [reflexivity|].
  split; [rewrite app_nil_r; reflexivity|].
  split.
  { intros key value Hin _. split; [exact Hin|]. apply not_elem_of_nil. }
  split; [|reflexivity].
  intros Hdisj. rewrite (disjoint_no_candidate rm properties Hdisj). auto.
Qed.

(** ** The remover: a property to remove *)

(** C2: the visit does not delete the properties that bind a name of the
    removal set.  When it meets the first of them it evaluates
    [propertyPath instanceof NodePath] with [NodePath] undefined, which is
    a [TypeError]: the visit stops there and no node has been detached.
    On [{ a, b, c }] with [a] and [c] to remove the pattern stays
    [{ a, b, c }], and on [{ foo, bar: baz }] with [foo] and [baz] to
    remove, the pattern of the module's own usage example, it stays
    [{ foo, bar: baz }]. *)
Theorem Remover_throws_at_first_candidate :
  RemoveNamedExportPropertiesVisitor_ObjectPattern ["a"; "c"] pattern_a_b_c
  = (mkObjectPath pattern_a_b_c [], Throw TypeError)
  /\ RemoveNamedExportPropertiesVisitor_ObjectPattern ["foo"; "baz"]
       pattern_foo_bar_baz
     = (mkObjectPath pattern_foo_bar_baz [], Throw TypeError)
  /\ (forall rm properties key i,
        ObjectProperty key (IdentifierPattern i) ∈ properties ->
        Identifier_name i ∈ rm ->
        RemoveNamedExportPropertiesVisitor_ObjectPattern rm properties
        = (mkObjectPath properties [], Throw TypeError)).
Proof.
  split; [reflexivity|]. split; [reflexivity|].
  intros rm properties key i Hin Hrm. rewrite ObjectPattern_eval.
  rewrite (proj2 (some_candidate_iff rm properties)) by eauto.
  reflexivity.
Qed.

(** ** The remover: two visits *)

(** C8: a second visit with the same removal set leaves the pattern the
    first visit left, detaches nothing and ends the way the first one
    ended. *)
Theorem Remover_second_pass_changes_nothing rm properties :
  exists once ending twice again ending',
    RemoveNamedExportPropertiesVisitor_ObjectPattern rm properties
    = (once, ending)
    /\ ObjectPattern_twice rm properties
       = (mkObjectPath twice again, ending')
    /\ twice = node_properties once
    /\ again = []
    /\ ending' = ending.
Proof.
  unfold ObjectPattern_twice. repeat (rewrite ObjectPattern_eval; simpl).
  eexists _, _, _, _, _.
  split; [reflexivity|]. split; [reflexivity|]. auto.
Qed.

(** * Further properties *)

(** ** The classifier *)

Lemma destructured_scan_one_name ds n m :
  destructured_scan ds n = true -> destructured_scan ds m = true -> n = m.
Proof.
  induction ds as [|[[i|[|[key [j|ps|es|t]|arg] props]|es|t]] ds IH];
    simpl; try discriminate; [exact IH|].
  rewrite !String_eqb_true. congruence.
Qed.

(** X1: on one node, at most one of the three predicates that look at the
    inner declaration answers [true], whatever names they are asked
    about. *)
Theorem declaration_forms_exclusive node n1 n2 n3 :
  ~ (isNamedExportFunction node n1 = Normal true
     /\ isNamedExportVariable node n2 = Normal true)
  /\ ~ (isNamedExportFunction node n1 = Normal true
        /\ isNamedExportDestructuredVariable node n3 = Normal true)
  /\ ~ (isNamedExportVariable node n2 = Normal true
        /\ isNamedExportDestructuredVariable node n3 = Normal true).
Proof.
  rewrite isNamedExportFunction_eval, isNamedExportVariable_eval,
    isNamedExportDestructuredVariable_eval.
  destruct (declaration node)
    as [[a [i|]|k [|[[i|[|[key [j|ps|es|t]|arg] props]|es|t]] ds]|o]|];
    simpl; repeat split; intros [H1 H2]; discriminate.
Qed.

(** X2: the inner declaration exports at most one name: when the
    declaration predicates answer [true] on two names, the names are
    equal. *)
Theorem declaration_exports_one_name node n m
  (Hn : declaration_exports node n) (Hm : declaration_exports node m) :
  n = m.
Proof.
  unfold declaration_exports in Hn, Hm.
  rewrite isNamedExportFunction_eval, isNamedExportVariable_eval,
    isNamedExportDestructuredVariable_eval in Hn, Hm.
  destruct (declaration node) as [[a [i|]|k [|[[i|ps|es|t]] ds]|o]|].
  all: destruct Hn as [[= Hn]|[[= Hn]|[= Hn]]]; try discriminate Hn.
  all: destruct Hm as [[= Hm]|[[= Hm]|[= Hm]]]; try discriminate Hm.
  all: try (apply String_eqb_true in Hn, Hm; congruence).
  exact (destructured_scan_one_name
           (mkDeclarator (ObjectPattern ps) :: ds) _ _ Hn Hm).
Qed.

Lemma declaration_exports_one_name_let_a_b :
  declaration_exports export_let_a_b "a"
  /\ declaration_exports export_let_a_b "a"
  /\ "a" = "a".
Proof.
  assert (H : declaration_exports export_let_a_b "a")
    by (right; left; reflexivity).
  split; [exact H|]. split; [exact H|].
  exact (declaration_exports_one_name export_let_a_b "a" "a" H H).
Defined.

Lemma existsb_Permutation {A} (f : A -> bool) (l1 l2 : list A) :
  l1 ≡ₚ l2 -> existsb f l1 = existsb f l2.
Proof.
  induction 1 as [|x l l' _ IH|x y l|l l' l'' _ IH1 _ IH2]; simpl.
  - reflexivity.
  - rewrite IH. reflexivity.
  - destruct (f x), (f y); reflexivity.
  - congruence.
Qed.

(** X3: the order of the specifier list does not matter: two declarations
    whose specifier lists are permutations of each other get the same
    answer from [isNamedExportSpecifier], and from [isNamedExport] when
    their inner declaration is the same. *)
Theorem isNamedExportSpecifier_Permutation
  (d : option Declaration) (l1 l2 : list Specifier) (name : string)
  (Hperm : l1 ≡ₚ l2) :
  isNamedExportSpecifier (mkExport d l1) name
  = isNamedExportSpecifier (mkExport d l2) name
  /\ isNamedExport (mkExport d l1) name = isNamedExport (mkExport d l2) name.
Proof.
  rewrite !isNamedExport_eval, !isNamedExportSpecifier_eval. simpl.
  rewrite (existsb_Permutation _ _ _ Hperm). split; reflexivity.
Qed.

Lemma isNamedExportSpecifier_swap_x_z :
  specifiers export_x_y_as_z ≡ₚ rev (specifiers export_x_y_as_z)
  /\ isNamedExportSpecifier (mkExport None (rev (specifiers export_x_y_as_z)))
       "z"
     = Normal true.
Proof.
  assert (Hperm : specifiers export_x_y_as_z
                  ≡ₚ rev (specifiers export_x_y_as_z))
    by apply perm_swap.
  split; [exact Hperm|].
  rewrite <- (proj1 (isNamedExportSpecifier_Permutation None _ _ "z" Hperm)).
  reflexivity.
Defined.

(** X4: the specifier list is searched piecewise: the answer on a
    concatenation is the disjunction of the answers on the two parts, and
    the inner declaration plays no part in it. *)
Theorem isNamedExportSpecifier_app d d' l1 l2 name :
  isNamedExportSpecifier (mkExport d (l1 ++ l2)) name
  = (isNamedExportSpecifier (mkExport d l1) name |||
     isNamedExportSpecifier (mkExport d l2) name)
  /\ isNamedExportSpecifier (mkExport d l1) name
     = isNamedExportSpecifier (mkExport d' l1) name.
Proof.
  rewrite !isNamedExportSpecifier_eval. cbn [specifiers].
  rewrite existsb_app, or_else_pure. split; reflexivity.
Qed.

(** X5: an [ExportSpecifier] whose exported name is a string literal
    ([export { x as "z" }]) has no influence on [isNamedExportSpecifier],
    and the local name of a specifier is never looked at. *)
Theorem isNamedExportSpecifier_ignores_literal_and_local
  d before after local local' exported value name :
  isNamedExportSpecifier
    (mkExport d (before ++
                 ExportSpecifier local (ExportedStringLiteral value) :: after))
    name
  = isNamedExportSpecifier (mkExport d (before ++ after)) name
  /\ isNamedExportSpecifier
       (mkExport d (before ++ ExportSpecifier local exported :: after)) name
     = isNamedExportSpecifier
         (mkExport d (before ++ ExportSpecifier local' exported :: after)) name.
Proof.
  rewrite !isNamedExportSpecifier_eval. simpl.
  rewrite !existsb_app. split; reflexivity.
Qed.

(** X6: the answer of [isNamedExport] does not depend on the kind of a
    variable declaration ([const], [let] or [var]), on whether a function
    is [async], or on the keys of a destructuring pattern. *)
Theorem isNamedExport_ignores_kind_async_key
  kind kind' async async' key key' id value props ds rest sp name :
  isNamedExport (mkExport (Some (VariableDeclaration kind ds)) sp) name
  = isNamedExport (mkExport (Some (VariableDeclaration kind' ds)) sp) name
  /\ isNamedExport (mkExport (Some (FunctionDeclaration async id)) sp) name
     = isNamedExport (mkExport (Some (FunctionDeclaration async' id)) sp) name
  /\ isNamedExport
       (mkExport
          (Some (VariableDeclaration kind
                   (mkDeclarator (ObjectPattern
                                    (ObjectProperty key value :: props))
                    :: rest))) sp) name
     = isNamedExport
         (mkExport
            (Some (VariableDeclaration kind
                     (mkDeclarator (ObjectPattern
                                      (ObjectProperty key' value :: props))
                      :: rest))) sp) name.
Proof.
  rewrite !isNamedExport_eval. repeat split; reflexivity.
Qed.

(** ** The remover *)

(** X7: a visit ends normally exactly when no property of the pattern
    binds a name of the removal set, and ends with a [TypeError] exactly
    when some [ObjectProperty] has a plain identifier value named in the
    removal set; either way the pattern is left as it was. *)
Theorem Remover_completes_iff_no_candidate rm properties :
  fst (RemoveNamedExportPropertiesVisitor_ObjectPattern rm properties)
  = mkObjectPath properties []
  /\ (snd (RemoveNamedExportPropertiesVisitor_ObjectPattern rm properties)
      = Normal tt <->
      Forall (fun p => binds_removed_name rm p = false) properties)
  /\ (snd (RemoveNamedExportPropertiesVisitor_ObjectPattern rm properties)
      = Throw TypeError <->
      exists key i,
        ObjectProperty key (IdentifierPattern i) ∈ properties
        /\ Identifier_name i ∈ rm).
Proof.
  rewrite ObjectPattern_eval. simpl. split; [reflexivity|].
  rewrite <- no_candidate_iff, <- some_candidate_iff.
  destruct (existsb (binds_removed_name rm) properties);
    split; split; congruence.
Qed.

Lemma existsb_ext_Permutation {A} (f g : A -> bool) (l1 l2 : list A) :
  (forall x, f x = g x) -> l1 ≡ₚ l2 -> existsb f l1 = existsb g l2.
Proof.
  intros Hfg Hperm. rewrite <- (existsb_Permutation g l1 l2 Hperm).
  clear Hperm. induction l1 as [|x l1 IH]; simpl; [reflexivity|].
  rewrite Hfg, IH. reflexivity.
Qed.

(** X8: the way a visit ends depends on the removal set only as a set of
    names and on the pattern only as a collection of properties: two
    removal arrays with the same members and two patterns that are
    permutations of each other end the same way. *)
Theorem Remover_ending_order_independent
  (rm rm' : list string) (properties properties' : list PatternProperty)
  (Hrm : forall n, n ∈ rm <-> n ∈ rm') (Hperm : properties ≡ₚ properties') :
  snd (RemoveNamedExportPropertiesVisitor_ObjectPattern rm properties)
  = snd (RemoveNamedExportPropertiesVisitor_ObjectPattern rm' properties').
Proof.
  rewrite !ObjectPattern_eval. simpl.
  rewrite (existsb_ext_Permutation (binds_removed_name rm)
             (binds_removed_name rm') properties properties');
    [reflexivity| |exact Hperm].
  intros p. apply eq_true_iff_eq.
  rewrite !binds_removed_name_true.
  split; intros (key & i & -> & Hin); exists key, i;
    (split; [reflexivity|apply Hrm, Hin]).
Qed.

Lemma Remover_ending_a_b_c_reversed :
  (forall n, n ∈ ["a"; "c"] <-> n ∈ ["c"; "a"; "a"])
  /\ pattern_a_b_c ≡ₚ rev pattern_a_b_c
  /\ snd (RemoveNamedExportPropertiesVisitor_ObjectPattern ["c"; "a"; "a"]
            (rev pattern_a_b_c))
     = Throw TypeError.
Proof.
  assert (Hrm : forall n, n ∈ ["a"; "c"] <-> n ∈ ["c"; "a"; "a"]).
  { intros n. rewrite !elem_of_cons. rewrite !elem_of_nil. tauto. }
  assert (Hperm : pattern_a_b_c ≡ₚ rev pattern_a_b_c)
    by apply Permutation_rev.
  split; [exact Hrm|]. split; [exact Hperm|].
  rewrite <- (Remover_ending_order_independent
                ["a"; "c"] ["c"; "a"; "a"] pattern_a_b_c (rev pattern_a_b_c)
                Hrm Hperm).
  reflexivity.
Defined.

(** ** Classifier and remover together *)

(** X12: when [isNamedExportDestructuredVariable] matches a name through
    the first property of a pattern and that name is in the removal set, a
    visit of the pattern ends with a [TypeError] and leaves the pattern as
    it was, so the predicate still matches the name on the declaration
    after the visit. *)
Theorem matched_property_is_kept
  kind key name props rest sp rm (Hin : name ∈ rm) :
  let property := ObjectProperty key (IdentifierPattern (mkIdentifier name)) in
  let export_of properties :=
    mkExport
      (Some (VariableDeclaration kind
               (mkDeclarator (ObjectPattern properties) :: rest))) sp in
  let visit :=
    RemoveNamedExportPropertiesVisitor_ObjectPattern rm (property :: props) in
  isNamedExportDestructuredVariable (export_of (property :: props)) name
  = Normal true
  /\ visit = (mkObjectPath (property :: props) [], Throw TypeError)
  /\ isNamedExportDestructuredVariable
       (export_of (node_properties (fst visit))) name
     = Normal true.
Proof.
  intros property export_of visit.
  assert (Hmatch : isNamedExportDestructuredVariable
                     (export_of (property :: props)) name = Normal true).
  { rewrite isNamedExportDestructuredVariable_eval. simpl.
    rewrite String.eqb_refl. reflexivity. }
  assert (Hvisit : visit
                   = (mkObjectPath (property :: props) [], Throw TypeError)).
  { unfold visit. rewrite ObjectPattern_eval.
    rewrite (proj2 (some_candidate_iff rm (property :: props))); [reflexivity|].
    exists key, (mkIdentifier name).
    split; [apply elem_of_cons; left; reflexivity|exact Hin]. }
  split; [exact Hmatch|]. split; [exact Hvisit|].
  rewrite Hvisit. exact Hmatch.
Qed.

Lemma matched_property_is_kept_a_b_c :
  "a" ∈ ["a"; "c"]
  /\ RemoveNamedExportPropertiesVisitor_ObjectPattern ["a"; "c"] pattern_a_b_c
     = (mkObjectPath pattern_a_b_c [], Throw TypeError).
Proof.
  assert (Hin : "a" ∈ ["a"; "c"]) by (apply elem_of_cons; left; reflexivity).
  split; [exact Hin|].
  exact (proj1 (proj2 (matched_property_is_kept Const
                         (KeyIdentifier (mkIdentifier "a")) "a"
                         [shorthand "b"; shorthand "c"] [] [] ["a"; "c"]
                         Hin))).
Defined.
